(** * A file-backed todo service: model of [app.py] and of its input schema

    The service keeps a JSON document in [todos.json] and serves three
    routes: [GET /todos], [GET /todos/<int:id>] and [POST /todos].  The
    POST route is wrapped by [validate_schema], which runs a Draft 4 JSON
    Schema validator over the posted body before the handler is called.

    JSON values are Python values after [json.load]: objects are [dict]s
    with string keys (a finite map, so that two dicts with the same entries
    are the same value whatever their key order), arrays are [list]s,
    integers are unbounded and floats carry their exact binary value.
    Strings are sequences of 8-bit characters. *)

From Stdlib Require Import ZArith Floats.SpecFloat.
From stdpp Require Import gmap strings list.

Local Open Scope Z_scope.

(** ** JSON values *)

#[warnings="-register-all"]
Inductive json : Type :=
  | JNull
  | JBool (b : bool)
  | JInt (n : Z)
  | JFloat (f : spec_float)
  | JStr (s : string)
  | JArr (l : list json)
  | JObj (m : gmap string json).

(** ** Python exceptions raised along the three routes

    [OSError] is what [open] raises on a missing or unreadable file.
    [DecodeError] stands for whatever [json.load] raises on content it does
    not decode: [JSONDecodeError] on text that is not JSON (an empty file
    included), [UnicodeDecodeError] on bytes that are not text in the file's
    encoding, [ValueError] on a number beyond the digit limit of the
    interpreter, [RecursionError] on nesting beyond its recursion limit.
    [HTTPException c] is werkzeug's exception for [abort(c)] and for a
    request body that cannot be decoded (code 400). *)

Inductive exn : Type :=
  | OSError
  | DecodeError
  | TypeError
  | KeyError
  | AttributeError
  | HTTPException (code : nat).

Inductive outcome (A : Type) : Type :=
  | Done (a : A)
  | Raise (e : exn).
Arguments Done {A} a.
Arguments Raise {A} e.

(** ** The backing file [todos.json]

    The file is abstracted to what [open] and [json.load] make of it:
    [Absent] when [open] fails on it (it is missing or unreadable),
    [NotJSON] when it opens and [json.load] raises on its content (an empty,
    just truncated file is such a one), and [Holds v] when [json.load]
    returns [v].  [json.dump] followed by [json.load]
    gives back an equal Python value, so a write of [v] leaves [Holds v]. *)

Inductive file : Type :=
  | Absent
  | NotJSON
  | Holds (v : json).

(** Handlers thread the file and may raise. *)

Definition io (A : Type) : Type := file → outcome A * file.

Definition ret {A} (a : A) : io A := λ fs, (Done a, fs).
Definition raise {A} (e : exn) : io A := λ fs, (Raise e, fs).
Definition bind {A B} (c : io A) (k : A → io B) : io B :=
  λ fs, match c fs with
        | (Done a, fs') => k a fs'
        | (Raise e, fs') => (Raise e, fs')
        end.

#[global] Instance io_ret : MRet io := @ret.
#[global] Instance io_bind : MBind io := λ A B k c, bind c k.

Definition result {A} (c : io A) (fs : file) : outcome A := fst (c fs).
Definition file_after {A} (c : io A) (fs : file) : file := snd (c fs).

(** ** The Python operations the handlers use *)

(** [len(v)]: defined on lists, dicts and strings. *)
Definition py_len (v : json) : io Z :=
  match v with
  | JArr l => mret (Z.of_nat (length l))
  | JObj m => mret (Z.of_nat (size m))
  | JStr s => mret (Z.of_nat (String.length s))
  | _ => raise TypeError
  end.

(** [v[k]] for a string key [k]: only a dict can be subscripted by a
    string; a missing key is a [KeyError]. *)
Definition py_getitem (v : json) (k : string) : io json :=
  match v with
  | JObj m => match m !! k with
              | Some x => mret x
              | None => raise KeyError
              end
  | _ => raise TypeError
  end.

(** [k in v] for a dict [v].  [add_todo] evaluates it after [v["userId"]]
    and [v["title"]], which raise on anything but a dict, so no other case
    is ever reached. *)
Definition py_in (k : string) (v : json) : bool :=
  match v with
  | JObj m => bool_decide (is_Some (m !! k))
  | _ => false
  end.

Fixpoint chars (s : string) : list json :=
  match s with
  | EmptyString => []
  | String c s' => JStr (String c EmptyString) :: chars s'
  end.

(** [for x in v]: a list yields its elements, a dict its keys, a string
    its characters. *)
Definition py_iter (v : json) : io (list json) :=
  match v with
  | JArr l => mret l
  | JObj m => mret (JStr <$> (map_to_list m).*1)
  | JStr s => mret (chars s)
  | _ => raise TypeError
  end.

(** The exact value of a finite float is [(-1)^s * m * 2^e]; Python
    compares a float with an int by value. *)
Definition float_eq_int (f : spec_float) (z : Z) : bool :=
  match f with
  | S754_zero _ => z =? 0
  | S754_finite s m e =>
      let v := if s then Z.neg m else Z.pos m in
      if 0 <=? e then z =? v * 2 ^ e else z * 2 ^ (- e) =? v
  | _ => false
  end.

(** [v == z] for an int [z]: [True == 1] and [False == 0] hold in Python,
    and no string, list, dict or [None] equals an int. *)
Definition py_eq_int (v : json) (z : Z) : bool :=
  match v with
  | JInt n => n =? z
  | JBool b => (if b then 1 else 0) =? z
  | JFloat f => float_eq_int f z
  | _ => false
  end.

(** [todos.append(todo)]: only a list has the method. *)
Definition py_append (todos todo : json) : io json :=
  match todos with
  | JArr l => mret (JArr (l ++ [todo]))
  | _ => raise AttributeError
  end.

(** ** Responses *)

Record response : Type := Response { status_code : nat; body : json }.

Definition jsonify (v : json) : response := Response 200 v.

(** [abort(code)] *)
Definition abort {A} (code : nat) : io A := raise (HTTPException code).

(** ** Store access: [get_todos] and [save_todo] *)

Definition get_todos : io json :=
  λ fs, match fs with
        | Absent => (Raise OSError, fs)
        | NotJSON => (Raise DecodeError, fs)
        | Holds v => (Done v, fs)
        end.

(** [open('todos.json', 'w')] creates or truncates the file. *)
Definition open_w : io () := λ _, (Done (), NotJSON).

(** [json.dump(v, outfile, sort_keys=True, indent=4)] *)
Definition json_dump (v : json) : io () := λ _, (Done (), Holds v).

Definition save_todo (todo : json) : io () :=
  todos ← get_todos;
  open_w;;
  todos' ← py_append todos todo;
  json_dump todos'.

(** ** Read handlers: [list_todos] and [get_todo] *)

Definition list_todos : io response :=
  todos ← get_todos;
  mret (jsonify (JObj {[ "todos" := todos ]})).

(** The body of the [for todo in todos] loop of [get_todo], over the
    items still to be visited. *)
Fixpoint scan (id : Z) (items : list json) : io response :=
  match items with
  | [] => abort 404
  | todo :: rest =>
      v ← py_getitem todo "id";
      if py_eq_int v id then mret (jsonify todo) else scan id rest
  end.

Definition get_todo (id : Z) : io response :=
  todos ← get_todos;
  items ← py_iter todos;
  scan id items.

(** ** The Draft 4 validator, for the keywords the schema uses *)

Inductive jtype : Type :=
  | TArray | TBoolean | TInteger | TNull | TNumber | TObject | TString.

(** A schema is a dict from keywords to their values, in source order. *)
#[warnings="-register-all"]
Inductive keyword : Type :=
  | K_schema (uri : string)
  | K_title (text : string)
  | K_description (text : string)
  | K_type (t : jtype)
  | K_properties (ps : list (string * list keyword))
  | K_additionalProperties (allowed : bool)
  | K_required (names : list string)
  | K_maxLength (n : nat).

(** What an error reports; its text is rendered by the library. *)
Inductive violation : Type :=
  | NotOfType (instance : json) (t : jtype)
  | Unexpected (extras : gset string)
  | RequiredProperty (name : string)
  | TooLong (instance : string).

Record ValidationError : Type :=
  Error { path : list string; what : violation }.

(** Draft 4 types: a bool is neither an integer nor a number, and a float
    is not an integer. *)
Definition is_type (t : jtype) (v : json) : bool :=
  match t, v with
  | TArray, JArr _ => true
  | TBoolean, JBool _ => true
  | TInteger, JInt _ => true
  | TNull, JNull => true
  | TNumber, JInt _ => true
  | TNumber, JFloat _ => true
  | TObject, JObj _ => true
  | TString, JStr _ => true
  | _, _ => false
  end.

(** [schema.get("properties", {})] *)
Fixpoint properties_of (schema : list keyword) : list (string * list keyword) :=
  match schema with
  | [] => []
  | K_properties ps :: _ => ps
  | _ :: rest => properties_of rest
  end.

(** The keys of the instance that [properties] does not name. *)
Definition find_additional_properties
    (m : gmap string json) (schema : list keyword) : gset string :=
  dom m ∖ list_to_set (properties_of schema).*1.

(** An error found under property [p] gets [p] in front of its path. *)
Definition under (p : string) (e : ValidationError) : ValidationError :=
  Error (p :: path e) (what e).

(** The errors of one keyword of [schema] on [instance].  The annotation
    keywords have no validator; [properties] descends into the sub-schema
    of each property the instance has, running all its keywords. *)
Fixpoint keyword_errors (schema : list keyword) (k : keyword) (instance : json)
    {struct k} : list ValidationError :=
  match k with
  | K_schema _ | K_title _ | K_description _ => []
  | K_type t =>
      if is_type t instance then [] else [Error [] (NotOfType instance t)]
  | K_properties ps =>
      match instance with
      | JObj m =>
          (fix each (ps : list (string * list keyword)) : list ValidationError :=
             match ps with
             | [] => []
             | (p, sub) :: ps' =>
                 match m !! p with
                 | Some v =>
                     under p <$>
                       (fix all (ks : list keyword) : list ValidationError :=
                          match ks with
                          | [] => []
                          | k' :: ks' => keyword_errors sub k' v ++ all ks'
                          end) sub
                 | None => []
                 end ++ each ps'
             end) ps
      | _ => []
      end
  | K_additionalProperties allowed =>
      match instance with
      | JObj m =>
          let extras := find_additional_properties m schema in
          if negb allowed && negb (bool_decide (extras = ∅))
          then [Error [] (Unexpected extras)]
          else []
      | _ => []
      end
  | K_required names =>
      match instance with
      | JObj m =>
          flat_map (λ name, match m !! name with
                            | Some _ => []
                            | None => [Error [] (RequiredProperty name)]
                            end) names
      | _ => []
      end
  | K_maxLength n =>
      match instance with
      | JStr s => if (n <? String.length s)%nat then [Error [] (TooLong s)] else []
      | _ => []
      end
  end.

(** [validator.iter_errors(instance)]: every keyword is run, in order. *)
Definition iter_errors (schema : list keyword) (instance : json)
    : list ValidationError :=
  flat_map (λ k, keyword_errors schema k instance) schema.

(** ** [schemas/input_todo_schema.py] *)

Definition string_property (description : string) : list keyword :=
  [ K_type TString; K_description description; K_maxLength 255 ].

Definition input_todo_schema : list keyword :=
  [ K_schema "http://json-schema.org/draft-04/schema#";
    K_title "input-todo-schema";
    K_description "Schema of post data for creating a new todo                     in the todo app.";
    K_type TObject;
    K_properties
      [ ("id", string_property "The unique id of the todo:");
        ("userId", string_property "The unique id of user.");
        ("title", string_property "The title of the todo");
        ("completed",
         [ K_type TBoolean;
           K_description "If the todo is completed or not" ]) ];
    K_additionalProperties false;
    K_required [ "userId"; "title" ] ].

(** ** The POST route *)

Section Service.

(** The text the validator library gives a violation ([error.message]). *)
Variable message : violation → string.

(** [request.get_json()]: the decoded body, cached by the first call; a
    body that does not decode is answered with 400. *)
Definition get_json (request : option json) : io json :=
  match request with
  | Some input => mret input
  | None => abort 400
  end.

Definition invalid_input (errors : list string) : response :=
  Response 406
    (JObj {[ "success" := JBool false;
             "message" := JStr "invalid input";
             "errors" := JArr (JStr <$> errors) ]}).

(** The decorator: [validate_schema(schema)(fn)] *)
Definition validate_schema (schema : list keyword)
    (fn : option json → io response) (request : option json) : io response :=
  input ← get_json request;
  let errors := (λ error, message (what error)) <$> iter_errors schema input in
  match errors with
  | _ :: _ => mret (invalid_input errors)
  | [] => fn request
  end.

(** The dict [add_todo] builds. *)
Definition new_todo (id : Z) (userId title completed : json) : json :=
  JObj {[ "id" := JInt id;
          "userId" := userId;
          "title" := title;
          "completed" := completed ]}.

(** The undecorated handler. *)
Definition add_todo_body (request : option json) : io response :=
  posted ← get_json request;
  todos ← get_todos;
  todos_len ← py_len todos;
  userId ← py_getitem posted "userId";
  title ← py_getitem posted "title";
  completed ← (if py_in "completed" posted
               then py_getitem posted "completed"
               else mret (JBool false));
  save_todo (new_todo (todos_len + 1) userId title completed);;
  mret (jsonify (JObj {[ "msg" := JStr "todo saved" ]})).

Definition add_todo : option json → io response :=
  validate_schema input_todo_schema add_todo_body.

End Service.

(** ** Vocabulary of the properties *)

(** The decorator lets a payload through when the validator finds nothing. *)
Definition valid (payload : json) : Prop :=
  iter_errors input_todo_schema payload = [].

(** "The id field of [todo] equals [id]", with Python's [==]. *)
Definition id_is (id : Z) (todo : json) : bool :=
  match todo with
  | JObj m => match m !! "id" with
              | Some v => py_eq_int v id
              | None => false
              end
  | _ => false
  end.

(** A stored item that is an object carrying an [id] entry. *)
Definition has_id (todo : json) : Prop :=
  ∃ m v, todo = JObj m ∧ m !! "id" = Some v.

(** What [add_todo] stores for the posted object [m] when [n] items are
    already there. *)
Definition created (n : nat) (m : gmap string json) (userId title : json) : json :=
  new_todo (Z.of_nat n + 1) userId title (default (JBool false) (m !! "completed")).

(** The persisted layout: an array of Todo objects, each with the keys
    [id] (integer), [userId] (string), [title] (string) and [completed]
    (boolean). *)
Definition is_todo (v : json) : Prop :=
  ∃ id u t c, v = new_todo id (JStr u) (JStr t) (JBool c).

Definition todo_array (v : json) : Prop :=
  ∃ l, v = JArr l ∧ Forall is_todo l.

(** *** The schema in words

    [reports payload e] says, rule by rule, which errors the schema asks
    for: the payload must be an object; [id], [userId] and [title] are
    strings of at most 255 characters; [completed] is a boolean; no other
    field is allowed; [userId] and [title] are required. *)

Definition string_fields : list string := ["id"; "userId"; "title"].
Definition required_fields : list string := ["userId"; "title"].
Definition known_fields : list string := ["id"; "userId"; "title"; "completed"].

Inductive reports : json → ValidationError → Prop :=
  | reports_not_object v :
      (∀ m, v ≠ JObj m) →
      reports v (Error [] (NotOfType v TObject))
  | reports_not_string m k v :
      k ∈ string_fields → m !! k = Some v → (∀ s, v ≠ JStr s) →
      reports (JObj m) (Error [k] (NotOfType v TString))
  | reports_too_long m k s :
      k ∈ string_fields → m !! k = Some (JStr s) →
      (255 < String.length s)%nat →
      reports (JObj m) (Error [k] (TooLong s))
  | reports_not_boolean m v :
      m !! "completed" = Some v → (∀ b, v ≠ JBool b) →
      reports (JObj m) (Error ["completed"] (NotOfType v TBoolean))
  | reports_unexpected m k :
      is_Some (m !! k) → k ∉ known_fields →
      reports (JObj m) (Error [] (Unexpected (dom m ∖ list_to_set known_fields)))
  | reports_required m k :
      k ∈ required_fields → m !! k = None →
      reports (JObj m) (Error [] (RequiredProperty k)).

(** *** The validator on the todo schema, keyword by keyword *)

Definition string_errors (p : string) (v : json) : list ValidationError :=
  match v with
  | JStr s => if (255 <? String.length s)%nat then [Error [p] (TooLong s)] else []
  | _ => [Error [p] (NotOfType v TString)]
  end.

Definition boolean_errors (p : string) (v : json) : list ValidationError :=
  match v with
  | JBool _ => []
  | _ => [Error [p] (NotOfType v TBoolean)]
  end.

Definition at_property (m : gmap string json) (p : string)
    (check : string → json → list ValidationError) : list ValidationError :=
  match m !! p with
  | Some v => check p v
  | None => []
  end.

Definition unexpected (m : gmap string json) : gset string :=
  dom m ∖ list_to_set known_fields.

Definition unexpected_errors (m : gmap string json) : list ValidationError :=
  if bool_decide (unexpected m = ∅) then []
  else [Error [] (Unexpected (unexpected m))].

Definition required_errors (m : gmap string json) (p : string)
    : list ValidationError :=
  match m !! p with
  | Some _ => []
  | None => [Error [] (RequiredProperty p)]
  end.

(** *** Data of the examples *)

(** A rendering of violations: the library's wording without the quoted
    instance. *)
Definition brief (v : violation) : string :=
  match v with
  | NotOfType _ _ => "is not of the required type"
  | Unexpected _ => "Additional properties are not allowed"
  | RequiredProperty name => name +:+ " is a required property"
  | TooLong _ => "is too long"
  end.

Definition buy_milk : json :=
  JObj {[ "userId" := JStr "u1"; "title" := JStr "buy milk" ]}.

Definition no_user : json := JObj {[ "title" := JStr "no user" ]}.

Definition empty_object : json := JObj ∅.

Definition blank : json := JObj {[ "userId" := JStr ""; "title" := JStr "" ]}.

Definition milk_done : json :=
  JObj {[ "userId" := JStr "u1"; "title" := JStr "buy milk";
          "completed" := JBool true ]}.

Definition milk_with_id : json :=
  JObj {[ "id" := JStr "7"; "userId" := JStr "u1"; "title" := JStr "buy milk" ]}.

Definition first_todo : json :=
  new_todo 1 (JStr "u1") (JStr "buy milk") (JBool false).

(** A stored item without an id. *)
Definition no_id_item : json := JObj {[ "title" := JStr "no id" ]}.

(** A stored item whose id is not its position. *)
Definition second_by_id : json :=
  new_todo 2 (JStr "x") (JStr "y") (JBool true).

(** ** Routing and sessions

    The three [@app.route] lines: [GET /todos], [GET /todos/<int:id>] (the
    converter lets through unsigned integers only) and [POST /todos] with
    its body, undecodable ([None]) or decoded. *)

Inductive call : Type :=
  | GET_todos
  | GET_todo (id : N)
  | POST_todos (body : option json).

Section Routes.

Variable message : violation → string.

Definition dispatch (c : call) : io response :=
  match c with
  | GET_todos => list_todos
  | GET_todo id => get_todo (Z.of_N id)
  | POST_todos body => add_todo message body
  end.

(** Requests handled one after the other; a request that ends in an
    exception leaves the file as the handler left it. *)
Fixpoint serve (cs : list call) (fs : file) : file :=
  match cs with
  | [] => fs
  | c :: cs' => serve cs' (file_after (dispatch c) fs)
  end.

End Routes.

(** A POST whose body decodes and passes the validator. *)
Definition accepts (c : call) : bool :=
  match c with
  | POST_todos (Some payload) =>
      match iter_errors input_todo_schema payload with
      | [] => true
      | _ :: _ => false
      end
  | _ => false
  end.

(** The item [add_todo] writes at position [i] (counted from 0): id [i + 1],
    a userId and a title of at most 255 characters, a boolean. *)
Definition stored_at (i : nat) (todo : json) : Prop :=
  ∃ u t c, todo = new_todo (Z.of_nat i + 1) (JStr u) (JStr t) (JBool c)
    ∧ (String.length u ≤ 255)%nat ∧ (String.length t ≤ 255)%nat.

(** A collection as creates alone leave it. *)
Definition ledger (l : list json) : Prop :=
  ∀ i todo, l !! i = Some todo → stored_at i todo.

(** The payloads the schema lets through, field by field. *)
Definition accepted (payload : json) : Prop :=
  ∃ m, payload = JObj m
    ∧ (∃ u, m !! "userId" = Some (JStr u) ∧ (String.length u ≤ 255)%nat)
    ∧ (∃ t, m !! "title" = Some (JStr t) ∧ (String.length t ≤ 255)%nat)
    ∧ (∀ v, m !! "completed" = Some v → ∃ b, v = JBool b)
    ∧ (∀ v, m !! "id" = Some v → ∃ s, v = JStr s ∧ (String.length s ≤ 255)%nat)
    ∧ (∀ k, is_Some (m !! k) → k ∈ known_fields).

(** JSON values without a length: [None], booleans and numbers. *)
Definition is_scalar (v : json) : bool :=
  match v with
  | JNull | JBool _ | JInt _ | JFloat _ => true
  | _ => false
  end.

(** A session: two creates, one of them done, a rejected and an undecodable
    post, and reads in between. *)
Definition session : list call :=
  [ POST_todos (Some buy_milk); GET_todo 1; POST_todos (Some no_user);
    POST_todos None; GET_todos; POST_todos (Some milk_done) ].

(** * Properties *)

(** ** Running the monad *)

Lemma bind_run {A B} (c : io A) (k : A → io B) (fs : file) :
  (c ≫= k) fs = match c fs with
                | (Done a, fs') => k a fs'
                | (Raise e, fs') => (Raise e, fs')
                end.
Proof. reflexivity. Qed.

Lemma ret_run {A} (a : A) (fs : file) : (mret a : io A) fs = (Done a, fs).
Proof. reflexivity. Qed.

Ltac run :=
  repeat (rewrite ?bind_run, ?ret_run;
          cbn [get_todos py_iter py_len py_append open_w json_dump get_json
               abort raise fst snd]).

Ltac in_list := solve [repeat constructor].

(** ** Reads do not write *)

Lemma scan_reads (id : Z) (items : list json) (fs : file) :
  snd (scan id items fs) = fs.
Proof.
  induction items as [|todo rest IH]; [done|].
  cbn [scan]. rewrite bind_run.
  destruct todo as [| | | | | |m]; try done.
  cbn [py_getitem]. destruct (m !! "id") as [v|]; [|done].
  rewrite ret_run. by destruct (py_eq_int v id).
Qed.

Lemma list_todos_reads (fs : file) : snd (list_todos fs) = fs.
Proof. unfold list_todos. rewrite bind_run. by destruct fs. Qed.

Lemma get_todo_reads (id : Z) (fs : file) : snd (get_todo id fs) = fs.
Proof.
  unfold get_todo. rewrite bind_run. destruct fs as [| |v]; try done.
  cbn [get_todos]. rewrite bind_run.
  destruct v; try done; cbn [py_iter]; rewrite ret_run; apply scan_reads.
Qed.

(** ** The scan of [get_todo] *)

Lemma scan_skip (id : Z) (todo : json) (rest : list json) (fs : file) :
  has_id todo → id_is id todo = false →
  scan id (todo :: rest) fs = scan id rest fs.
Proof.
  intros (m & v & -> & Hv) Hno. cbn [scan id_is py_getitem] in *.
  rewrite Hv in *. rewrite bind_run, ret_run. by rewrite Hno.
Qed.

Lemma scan_hit (id : Z) (todo : json) (rest : list json) (fs : file) :
  id_is id todo = true →
  scan id (todo :: rest) fs = (Done (jsonify todo), fs).
Proof.
  destruct todo as [| | | | | |m]; try done. cbn [scan id_is py_getitem].
  destruct (m !! "id") as [v|]; [|done]. intros Hyes.
  rewrite bind_run, ret_run. by rewrite Hyes.
Qed.

Lemma scan_prefix (id : Z) (pre items : list json) (fs : file) :
  Forall has_id pre → Forall (λ t, id_is id t = false) pre →
  scan id (pre ++ items) fs = scan id items fs.
Proof.
  induction 1 as [|t pre Ht _ IH]; [done|].
  intros Hno. apply Forall_cons in Hno as [Hno Hrest].
  rewrite <- app_comm_cons, scan_skip by done. by apply IH.
Qed.

Lemma scan_404 (id : Z) (items : list json) (fs : file) :
  Forall has_id items →
  fst (scan id items fs) = Raise (HTTPException 404)
  ↔ Forall (λ t, id_is id t = false) items.
Proof.
  induction 1 as [|t items Ht _ IH]; [by split|].
  destruct (id_is id t) eqn:Hid.
  - rewrite scan_hit by done. split; [done|].
    intros Hall. apply Forall_cons in Hall as [Hall _]. congruence.
  - rewrite scan_skip by done. rewrite IH. split.
    + intros Hall. by apply Forall_cons.
    + intros Hall. by apply Forall_cons in Hall as [_ Hall].
Qed.

Lemma get_todo_scans (id : Z) (l : list json) :
  get_todo id (Holds (JArr l)) = scan id l (Holds (JArr l)).
Proof. reflexivity. Qed.

(** ** The validator on the todo schema *)

Lemma iter_errors_object (m : gmap string json) :
  iter_errors input_todo_schema (JObj m) =
    at_property m "id" string_errors ++ at_property m "userId" string_errors ++
    at_property m "title" string_errors ++ at_property m "completed" boolean_errors ++
    unexpected_errors m ++ required_errors m "userId" ++ required_errors m "title".
Proof.
  unfold iter_errors, input_todo_schema, string_property, at_property,
    unexpected_errors, required_errors.
  cbn [flat_map keyword_errors is_type app fmap list_fmap negb andb].
  change (find_additional_properties m _) with (unexpected m).
  rewrite !app_nil_r, <- !app_assoc.
  repeat f_equal.
  - destruct (m !! "id") as [[]|]; try done. cbn. by case_match.
  - destruct (m !! "userId") as [[]|]; try done. cbn. by case_match.
  - destruct (m !! "title") as [[]|]; try done. cbn. by case_match.
  - by destruct (m !! "completed") as [[]|].
  - by case_bool_decide.
Qed.

Lemma iter_errors_not_object (v : json) :
  (∀ m, v ≠ JObj m) →
  iter_errors input_todo_schema v = [Error [] (NotOfType v TObject)].
Proof. intros Hv. destruct v; try done. by destruct (Hv m). Qed.

Lemma elem_of_string_errors (e : ValidationError) (p : string) (v : json) :
  e ∈ string_errors p v ↔
    (e = Error [p] (NotOfType v TString) ∧ ∀ s, v ≠ JStr s)
    ∨ (∃ s, v = JStr s ∧ (255 < String.length s)%nat ∧ e = Error [p] (TooLong s)).
Proof.
  destruct v; cbn [string_errors];
    try (rewrite list_elem_of_singleton; split;
         [by left | by intros [[? ?]|(? & ? & ?)]]).
  destruct (Nat.ltb_spec 255 (String.length s)) as [Hlen|Hlen].
  - rewrite list_elem_of_singleton. split.
    + intros ->. right. by exists s.
    + intros [[_ Hs]|(s' & [= <-] & _ & ->)]; [by destruct (Hs s)|done].
  - split; [by intros ?%elem_of_nil|].
    intros [[_ Hs]|(s' & [= <-] & ? & _)]; [by destruct (Hs s)|lia].
Qed.

Lemma elem_of_boolean_errors (e : ValidationError) (p : string) (v : json) :
  e ∈ boolean_errors p v ↔ e = Error [p] (NotOfType v TBoolean) ∧ ∀ b, v ≠ JBool b.
Proof.
  destruct v; cbn [boolean_errors];
    try (rewrite list_elem_of_singleton; split; [done | by intros [? ?]]).
  split; [by intros ?%elem_of_nil|]. intros [_ Hb]. by destruct (Hb b).
Qed.

Lemma elem_of_at_property (e : ValidationError) (m : gmap string json) (p : string)
    (check : string → json → list ValidationError) :
  e ∈ at_property m p check ↔ ∃ v, m !! p = Some v ∧ e ∈ check p v.
Proof.
  unfold at_property. destruct (m !! p) as [v|].
  - split; [by exists v | by intros (? & [= <-] & ?)].
  - split; [by intros ?%elem_of_nil | by intros (? & ? & ?)].
Qed.

Lemma elem_of_unexpected (k : string) (m : gmap string json) :
  k ∈ unexpected m ↔ is_Some (m !! k) ∧ k ∉ known_fields.
Proof.
  unfold unexpected. rewrite elem_of_difference, elem_of_dom, elem_of_list_to_set.
  done.
Qed.

Lemma elem_of_unexpected_errors (e : ValidationError) (m : gmap string json) :
  e ∈ unexpected_errors m ↔
    e = Error [] (Unexpected (unexpected m)) ∧ ∃ k, is_Some (m !! k) ∧ k ∉ known_fields.
Proof.
  unfold unexpected_errors. case_bool_decide as Hempty.
  - split; [by intros ?%elem_of_nil|]. intros [_ (k & Hk)].
    apply elem_of_unexpected in Hk. rewrite Hempty in Hk. set_solver.
  - rewrite list_elem_of_singleton. split; [|by intros [? _]].
    intros ->. split; [done|].
    apply set_choose_L in Hempty as [k Hk]. exists k. by apply elem_of_unexpected.
Qed.

Lemma elem_of_required_errors (e : ValidationError) (m : gmap string json) (p : string) :
  e ∈ required_errors m p ↔ e = Error [] (RequiredProperty p) ∧ m !! p = None.
Proof.
  unfold required_errors. destruct (m !! p).
  - split; [by intros ?%elem_of_nil | by intros [_ ?]].
  - rewrite list_elem_of_singleton. split; [by intros -> | by intros [-> _]].
Qed.

Lemma iter_errors_reports (p : json) (e : ValidationError) :
  e ∈ iter_errors input_todo_schema p ↔ reports p e.
Proof.
  split.
  - destruct p as [| | | | | |m];
      try (rewrite iter_errors_not_object by done;
           intros ->%list_elem_of_singleton; by constructor).
    rewrite iter_errors_object, !elem_of_app, !elem_of_at_property.
    setoid_rewrite elem_of_string_errors. setoid_rewrite elem_of_boolean_errors.
    rewrite elem_of_unexpected_errors, !elem_of_required_errors.
    unfold string_fields.
    intros [(v & Hv & [[-> Hs]|(s & -> & Hlen & ->)])
          |[(v & Hv & [[-> Hs]|(s & -> & Hlen & ->)])
          |[(v & Hv & [[-> Hs]|(s & -> & Hlen & ->)])
          |[(v & Hv & -> & Hb)
          |[[-> (k & Hk & Hnew)]
          |[[-> Hnone]|[-> Hnone]]]]]]].
    all: try (by eapply reports_not_string; [in_list|done..]).
    all: try (by eapply reports_too_long; [in_list|done..]).
    + by apply reports_not_boolean.
    + by eapply reports_unexpected.
    + apply reports_required; [in_list|done].
    + apply reports_required; [in_list|done].
  - intros Hrep. destruct Hrep as [v Hv|m k v Hk Hv Hs|m k s Hk Hv Hlen|m v Hv Hb|m k Hk Hnew|m k Hk Hnone].
    + rewrite iter_errors_not_object by done. by apply list_elem_of_singleton.
    + rewrite iter_errors_object, !elem_of_app, !elem_of_at_property.
      setoid_rewrite elem_of_string_errors.
      unfold string_fields in Hk. rewrite !elem_of_cons in Hk.
      destruct Hk as [->|[->|[->|?%elem_of_nil]]]; [| | |done]; naive_solver.
    + rewrite iter_errors_object, !elem_of_app, !elem_of_at_property.
      setoid_rewrite elem_of_string_errors.
      unfold string_fields in Hk. rewrite !elem_of_cons in Hk.
      destruct Hk as [->|[->|[->|?%elem_of_nil]]]; [| | |done]; naive_solver.
    + rewrite iter_errors_object, !elem_of_app, !elem_of_at_property.
      setoid_rewrite elem_of_boolean_errors. naive_solver.
    + rewrite iter_errors_object, !elem_of_app, elem_of_unexpected_errors.
      do 4 right. left. split; [done|]. by exists k.
    + rewrite iter_errors_object, !elem_of_app, !elem_of_required_errors.
      unfold required_fields in Hk. rewrite !elem_of_cons in Hk.
      destruct Hk as [->|[->|?%elem_of_nil]]; [| |done]; naive_solver.
Qed.

Lemma string_errors_path (e : ValidationError) (m : gmap string json) (p : string) :
  e ∈ at_property m p string_errors → path e = [p].
Proof.
  rewrite elem_of_at_property. setoid_rewrite elem_of_string_errors.
  by intros (v & _ & [[-> _]|(s & _ & _ & ->)]).
Qed.

Lemma boolean_errors_path (e : ValidationError) (m : gmap string json) (p : string) :
  e ∈ at_property m p boolean_errors → path e = [p].
Proof.
  rewrite elem_of_at_property. setoid_rewrite elem_of_boolean_errors.
  by intros (v & _ & -> & _).
Qed.

Lemma unexpected_errors_path (e : ValidationError) (m : gmap string json) :
  e ∈ unexpected_errors m → path e = [] ∧ what e = Unexpected (unexpected m).
Proof. rewrite elem_of_unexpected_errors. by intros [-> _]. Qed.

Lemma required_errors_path (e : ValidationError) (m : gmap string json) (p : string) :
  e ∈ required_errors m p → path e = [] ∧ what e = RequiredProperty p.
Proof. rewrite elem_of_required_errors. by intros [-> _]. Qed.

Lemma NoDup_string_errors (m : gmap string json) (p : string) :
  NoDup (at_property m p string_errors).
Proof.
  unfold at_property. destruct (m !! p) as [v|]; [|constructor].
  destruct v; cbn; try case_match; try apply NoDup_singleton; constructor.
Qed.

Lemma NoDup_boolean_errors (m : gmap string json) (p : string) :
  NoDup (at_property m p boolean_errors).
Proof.
  unfold at_property. destruct (m !! p) as [v|]; [|constructor].
  destruct v; cbn; try apply NoDup_singleton; constructor.
Qed.

Lemma NoDup_unexpected_errors (m : gmap string json) :
  NoDup (unexpected_errors m).
Proof.
  unfold unexpected_errors. case_bool_decide; [constructor | apply NoDup_singleton].
Qed.

Lemma NoDup_required_errors (m : gmap string json) (p : string) :
  NoDup (required_errors m p).
Proof.
  unfold required_errors. destruct (m !! p); [constructor | apply NoDup_singleton].
Qed.

Ltac apart :=
  repeat match goal with
  | H : _ ∈ _ ++ _ |- _ => apply elem_of_app in H as [H|H]
  | H : _ ∈ at_property _ _ string_errors |- _ => apply string_errors_path in H
  | H : _ ∈ at_property _ _ boolean_errors |- _ => apply boolean_errors_path in H
  | H : _ ∈ unexpected_errors _ |- _ => apply unexpected_errors_path in H as [? ?]
  | H : _ ∈ required_errors _ _ |- _ => apply required_errors_path in H as [? ?]
  end; congruence.

Lemma NoDup_iter_errors (p : json) : NoDup (iter_errors input_todo_schema p).
Proof.
  destruct p as [| | | | | |m];
    try (rewrite iter_errors_not_object by done; apply NoDup_singleton).
  rewrite iter_errors_object.
  repeat (apply NoDup_app; split; [|split; [intros e Hin Hin'; apart|]]).
  all: first [apply NoDup_string_errors | apply NoDup_boolean_errors
             |apply NoDup_unexpected_errors | apply NoDup_required_errors].
Qed.

Lemma required_is_string (k : string) : k ∈ required_fields → k ∈ string_fields.
Proof.
  unfold required_fields. rewrite !elem_of_cons.
  intros [->|[->|?%elem_of_nil]]; [in_list..|done].
Qed.

Lemma valid_payload (payload : json) :
  valid payload →
  ∃ m u t, payload = JObj m
    ∧ m !! "userId" = Some (JStr u) ∧ (String.length u ≤ 255)%nat
    ∧ m !! "title" = Some (JStr t) ∧ (String.length t ≤ 255)%nat
    ∧ (∀ v, m !! "completed" = Some v → ∃ b, v = JBool b)
    ∧ (∀ v, m !! "id" = Some v → ∃ s, v = JStr s ∧ (String.length s ≤ 255)%nat)
    ∧ (∀ k, is_Some (m !! k) → k ∈ known_fields).
Proof.
  intros Hvalid.
  assert (Hnone : ∀ e, ¬ reports payload e).
  { intros e He%iter_errors_reports. rewrite Hvalid in He. by apply elem_of_nil in He. }
  destruct payload as [| | | | | |m];
    try (by edestruct Hnone; apply reports_not_object).
  assert (Hstr : ∀ k v, k ∈ string_fields → m !! k = Some v →
                        ∃ s, v = JStr s ∧ (String.length s ≤ 255)%nat).
  { intros k v Hk Hv. destruct v as [| | | |s| |];
      try (by edestruct Hnone; eapply reports_not_string).
    exists s. split; [done|].
    destruct (decide (String.length s ≤ 255)%nat) as [|Hlong]; [done|].
    edestruct Hnone. eapply reports_too_long; [done..|lia]. }
  assert (Hreq : ∀ k, k ∈ required_fields → ∃ s, m !! k = Some (JStr s)
                        ∧ (String.length s ≤ 255)%nat).
  { intros k Hk. destruct (m !! k) as [v|] eqn:Hv.
    - destruct (Hstr k v) as (s & -> & Hlen);
        [by apply required_is_string|done|by exists s].
    - edestruct Hnone. by apply reports_required. }
  destruct (Hreq "userId") as (u & Hu & Hulen); [in_list|].
  destruct (Hreq "title") as (t & Ht & Htlen); [in_list|].
  exists m, u, t. repeat split; try done.
  - intros v Hv. destruct v as [|b| | | | |];
      try (by edestruct Hnone; eapply reports_not_boolean). by exists b.
  - intros v Hv. apply (Hstr "id"); [in_list|done].
  - intros k Hk. destruct (decide (k ∈ known_fields)) as [|Hnew]; [done|].
    edestruct Hnone. by eapply reports_unexpected.
Qed.


(** ** The POST route *)

Section Create.

Variable message : violation → string.

Lemma validate_schema_rejects (schema : list keyword)
    (fn : option json → io response) (payload : json) (fs : file) :
  iter_errors schema payload ≠ [] →
  validate_schema message schema fn (Some payload) fs =
    (Done (invalid_input
             ((λ error, message (what error)) <$> iter_errors schema payload)),
     fs).
Proof.
  intros Herr. unfold validate_schema. run.
  by destruct (iter_errors schema payload).
Qed.

Lemma validate_schema_accepts (schema : list keyword)
    (fn : option json → io response) (payload : json) (fs : file) :
  iter_errors schema payload = [] →
  validate_schema message schema fn (Some payload) fs = fn (Some payload) fs.
Proof. intros Hok. unfold validate_schema. run. by rewrite Hok. Qed.

Lemma add_todo_body_stores (m : gmap string json) (userId title : json)
    (l : list json) :
  m !! "userId" = Some userId → m !! "title" = Some title →
  add_todo_body (Some (JObj m)) (Holds (JArr l)) =
    (Done (jsonify (JObj {[ "msg" := JStr "todo saved" ]})),
     Holds (JArr (l ++ [created (length l) m userId title]))).
Proof.
  intros Hu Ht. unfold add_todo_body, save_todo, created. run.
  cbn [py_getitem py_in]. rewrite Hu, Ht. run.
  case_bool_decide as Hc.
  - destruct Hc as [c Hc]. rewrite Hc. by run.
  - apply eq_None_not_Some in Hc. rewrite Hc. by run.
Qed.

Lemma add_todo_stores (payload : json) (l : list json) :
  valid payload →
  ∃ m u t, payload = JObj m
    ∧ m !! "userId" = Some (JStr u) ∧ (String.length u ≤ 255)%nat
    ∧ m !! "title" = Some (JStr t) ∧ (String.length t ≤ 255)%nat
    ∧ add_todo message (Some payload) (Holds (JArr l)) =
        (Done (jsonify (JObj {[ "msg" := JStr "todo saved" ]})),
         Holds (JArr (l ++ [created (length l) m (JStr u) (JStr t)]))).
Proof.
  intros Hvalid.
  destruct (valid_payload _ Hvalid) as (m & u & t & -> & Hu & Hulen & Ht & Htlen & _).
  exists m, u, t. repeat split; try done.
  unfold add_todo. rewrite validate_schema_accepts by done.
  by apply add_todo_body_stores.
Qed.

Lemma created_lookup (n : nat) (m : gmap string json) (userId title : json) :
  ∃ todo, created n m userId title = JObj todo
    ∧ todo !! "id" = Some (JInt (Z.of_nat n + 1))
    ∧ todo !! "userId" = Some userId
    ∧ todo !! "title" = Some title
    ∧ todo !! "completed" = Some (default (JBool false) (m !! "completed")).
Proof. eexists. split; [reflexivity|]. by repeat split. Qed.

Lemma id_is_created (n : nat) (m : gmap string json) (userId title : json) :
  id_is (Z.of_nat n + 1) (created n m userId title) = true.
Proof.
  unfold created, new_todo, id_is. rewrite lookup_insert_eq.
  cbn [py_eq_int]. apply Z.eqb_refl.
Qed.

(** The handler reads [userId], [title] and [completed] of the posted
    object and nothing else. *)
Lemma add_todo_body_reads (m1 m2 : gmap string json) (fs : file) :
  (∀ k, k ≠ "id" → m1 !! k = m2 !! k) →
  add_todo_body (Some (JObj m1)) fs = add_todo_body (Some (JObj m2)) fs.
Proof.
  intros Hsame. unfold add_todo_body.
  rewrite !(bind_run (get_json _)). cbn [get_json]. rewrite !ret_run.
  cbn [py_getitem py_in].
  by rewrite (Hsame "userId"), (Hsame "title"), (Hsame "completed").
Qed.

(** A failed load stops the handler before it opens the file for writing. *)
Lemma add_todo_body_load_fails (request : option json) (fs : file) (e : exn) :
  fst (get_todos fs) = Raise e →
  snd (add_todo_body request fs) = fs
  ∧ ∀ payload, request = Some payload → fst (add_todo_body request fs) = Raise e.
Proof.
  intros Hload. destruct fs as [| |v]; [| |done]; simplify_eq/=.
  - split; [by destruct request|]. by intros payload ->.
  - split; [by destruct request|]. by intros payload ->.
Qed.

(** C1 (amended): for every valid creation payload and every file that
    holds a JSON array, create answers "todo saved" and leaves the array
    with exactly one more item, put at the end: every item stored before is
    still there at its position, the length has grown by one, and the id of
    the new item is the prior length plus one. *)
Theorem add_todo_appends (payload : json) (l : list json) :
  valid payload →
  ∃ todo new,
    add_todo message (Some payload) (Holds (JArr l)) =
      (Done (Response 200 (JObj {[ "msg" := JStr "todo saved" ]})),
       Holds (JArr (l ++ [todo])))
    ∧ todo = JObj new
    ∧ new !! "id" = Some (JInt (Z.of_nat (length l) + 1))
    ∧ length (l ++ [todo]) = S (length l)
    ∧ (∀ i old, l !! i = Some old → (l ++ [todo]) !! i = Some old)
    ∧ (l ++ [todo]) !! length l = Some todo.
Proof.
  intros Hvalid.
  destruct (add_todo_stores payload l Hvalid)
    as (m & u & t & -> & _ & _ & _ & _ & Hrun).
  destruct (created_lookup (length l) m (JStr u) (JStr t))
    as (new & Hnew & Hid & _).
  exists (created (length l) m (JStr u) (JStr t)), new.
  split; [exact Hrun|]. split; [exact Hnew|]. split; [exact Hid|].
  split; [|split].
  - rewrite length_app. cbn. lia.
  - intros i old Hold. by apply lookup_app_l_Some.
  - by rewrite lookup_app_r, Nat.sub_diag.
Qed.

(** C2: for every payload that violates the schema (it is not an object, a
    required field is missing, a field outside id, userId, title, completed
    is present, a string field is longer than 255 characters or a field has
    the wrong type), create answers 406 with the body
    {"success": false, "message": "invalid input", "errors": [...]}, the
    list of errors is not empty, and the file is left as it was, whatever
    its state. *)
Theorem add_todo_rejects (payload : json) (e : ValidationError) (fs : file) :
  reports payload e →
  ∃ errors, errors ≠ []
    ∧ add_todo message (Some payload) fs =
        (Done (Response 406
                 (JObj {[ "success" := JBool false;
                          "message" := JStr "invalid input";
                          "errors" := JArr (JStr <$> errors) ]})),
         fs).
Proof.
  intros Hrep%iter_errors_reports.
  exists ((λ error, message (what error)) <$> iter_errors input_todo_schema payload).
  assert (Hsome : iter_errors input_todo_schema payload ≠ []).
  { intros Hnil. rewrite Hnil in Hrep. by apply elem_of_nil in Hrep. }
  split.
  - intros Hnil%fmap_nil_inv. done.
  - unfold add_todo. by rewrite validate_schema_rejects.
Qed.

(** C3 (amended): for every valid creation payload and every stored
    collection whose items all carry an id different from the prior length
    plus one, the Todo that create stores is what get-by-id returns for the
    id assigned at creation (prior length + 1), with the posted userId and
    title and with the posted completed, or false when none was posted. *)
Theorem created_todo_is_retrievable (payload : json) (l : list json) :
  valid payload →
  Forall has_id l →
  Forall (λ t, id_is (Z.of_nat (length l) + 1) t = false) l →
  ∃ m todo,
    payload = JObj m
    ∧ get_todo (Z.of_nat (length l) + 1)
        (file_after (add_todo message (Some payload)) (Holds (JArr l))) =
        (Done (Response 200 (JObj todo)), Holds (JArr (l ++ [JObj todo])))
    ∧ todo !! "id" = Some (JInt (Z.of_nat (length l) + 1))
    ∧ todo !! "userId" = m !! "userId"
    ∧ todo !! "title" = m !! "title"
    ∧ todo !! "completed" = Some (default (JBool false) (m !! "completed")).
Proof.
  intros Hvalid Hids Hfresh.
  destruct (add_todo_stores payload l Hvalid)
    as (m & u & t & -> & Hu & _ & Ht & _ & Hrun).
  destruct (created_lookup (length l) m (JStr u) (JStr t))
    as (todo & Htodo & Hid & Huser & Htitle & Hcompleted).
  exists m, todo. split; [done|].
  unfold file_after. rewrite Hrun. cbn [snd]. rewrite Htodo in *.
  split; [|by rewrite Hu, Ht].
  rewrite get_todo_scans, scan_prefix by done.
  apply scan_hit. rewrite <- Htodo. apply id_is_created.
Qed.

(** C4 (amended): every Todo persisted by create has a userId and a title
    that are strings of at most 255 characters; the schema sets no minimum
    length, so the empty string passes. *)
Theorem persisted_strings_are_bounded (payload : json) (l : list json) :
  valid payload →
  ∃ todo u t,
    file_after (add_todo message (Some payload)) (Holds (JArr l)) =
      Holds (JArr (l ++ [JObj todo]))
    ∧ todo !! "userId" = Some (JStr u) ∧ (String.length u ≤ 255)%nat
    ∧ todo !! "title" = Some (JStr t) ∧ (String.length t ≤ 255)%nat.
Proof.
  intros Hvalid.
  destruct (add_todo_stores payload l Hvalid)
    as (m & u & t & -> & _ & Hulen & _ & Htlen & Hrun).
  destruct (created_lookup (length l) m (JStr u) (JStr t))
    as (todo & Htodo & _ & Huser & Htitle & _).
  exists todo, u, t. unfold file_after. rewrite Hrun, Htodo. by cbn [snd].
Qed.

(** C6: for every valid creation payload, the Todo that create stores has
    completed false when the payload has no completed field, and the posted
    boolean when it has one. *)
Theorem completed_defaults_to_false (m : gmap string json) (l : list json) :
  valid (JObj m) →
  ∃ todo,
    file_after (add_todo message (Some (JObj m))) (Holds (JArr l)) =
      Holds (JArr (l ++ [JObj todo]))
    ∧ (m !! "completed" = None → todo !! "completed" = Some (JBool false))
    ∧ (∀ c, m !! "completed" = Some c →
         (∃ b, c = JBool b) ∧ todo !! "completed" = Some c).
Proof.
  intros Hvalid.
  destruct (valid_payload _ Hvalid) as (m' & _ & _ & [= <-] & _ & _ & _ & _ & Hbool & _).
  destruct (add_todo_stores (JObj m) l Hvalid)
    as (m' & u & t & [= <-] & _ & _ & _ & _ & Hrun).
  destruct (created_lookup (length l) m (JStr u) (JStr t))
    as (todo & Htodo & _ & _ & _ & Hcompleted).
  exists todo. unfold file_after. rewrite Hrun, Htodo. cbn [snd].
  split; [done|]. split.
  - intros Hnone. by rewrite Hcompleted, Hnone.
  - intros c Hc. split; [by apply Hbool|]. by rewrite Hcompleted, Hc.
Qed.

(** A failed load is all that the three routes and [save_todo] do. *)
Lemma load_fails_everywhere (id : Z) (todo : json) (fs : file) (e : exn) :
  fst (get_todos fs) = Raise e →
  list_todos fs = (Raise e, fs)
  ∧ get_todo id fs = (Raise e, fs)
  ∧ save_todo todo fs = (Raise e, fs).
Proof.
  intros Hload. unfold list_todos, get_todo, save_todo. rewrite !bind_run.
  destruct fs as [| |v]; [| |done]; by simplify_eq/=.
Qed.

(** C7 (amended): load fails in two cases only, with the error of [open]
    (StorageUnavailable) when the file is missing or unreadable and with the
    error of the decoder (CorruptState) when [json.load] does not decode its
    content; content that [json.load] decodes is returned as it is, whatever
    its structure.  A failed load is not handled anywhere: list, get-by-id
    and [save_todo] end with its error, and so does create on a valid
    payload; nothing is written, whatever was posted. *)
Theorem load_failures (request : option json) (id : Z) (todo : json)
    (fs : file) (e : exn) :
  (result get_todos fs = Raise e
   ↔ fs = Absent ∧ e = OSError ∨ fs = NotJSON ∧ e = DecodeError)
  ∧ (∀ v, result get_todos fs = Done v ↔ fs = Holds v)
  ∧ (result get_todos fs = Raise e →
       list_todos fs = (Raise e, fs)
       ∧ get_todo id fs = (Raise e, fs)
       ∧ save_todo todo fs = (Raise e, fs)
       ∧ file_after (add_todo message request) fs = fs
       ∧ (∀ payload, request = Some payload → valid payload →
            add_todo message request fs = (Raise e, fs))).
Proof.
  unfold result, file_after. split; [|split].
  - destruct fs as [| |v]; cbn; split.
    all: try (intros [= <-]; auto).
    all: try (by intros [[? ?]|[? ?]]; simplify_eq).
  - intros v. destruct fs as [| |v']; cbn; split; intros H; by simplify_eq.
  - intros Hload.
    destruct (load_fails_everywhere id todo fs e Hload) as (Hlist & Hget & Hsave).
    destruct (add_todo_body_load_fails request fs e Hload) as [Hfile Hfault].
    do 3 (split; [done|]). split.
    + destruct request as [payload|]; [|done].
      destruct (iter_errors input_todo_schema payload) as [|e' errors] eqn:Herr.
      * unfold add_todo. by rewrite validate_schema_accepts.
      * unfold add_todo. by rewrite validate_schema_rejects by (by rewrite Herr).
    + intros payload -> Hvalid.
      unfold add_todo. rewrite validate_schema_accepts by done.
      rewrite (surjective_pairing (add_todo_body _ _)). f_equal; [|done].
      by apply (Hfault payload).
Qed.

(** C9: for every payload, the validator reports every violation of the
    schema and nothing else, each once; when the payload violates the
    schema, create answers 406 and the response carries one message per
    reported violation, in the validator's order; a payload with neither
    userId nor title violates the schema twice at least and gets at least
    two messages. *)
Theorem every_violation_is_reported (payload : json) (fs : file) :
  (∀ e, reports payload e ↔ e ∈ iter_errors input_todo_schema payload)
  ∧ NoDup (iter_errors input_todo_schema payload)
  ∧ (∀ e, reports payload e →
       iter_errors input_todo_schema payload ≠ []
       ∧ add_todo message (Some payload) fs =
           (Done (Response 406
                    (JObj {[ "success" := JBool false;
                             "message" := JStr "invalid input";
                             "errors" :=
                               JArr ((λ e, JStr (message (what e)))
                                       <$> iter_errors input_todo_schema payload) ]})),
            fs))
  ∧ (∀ m, payload = JObj m → m !! "userId" = None → m !! "title" = None →
       reports payload (Error [] (RequiredProperty "userId"))
       ∧ reports payload (Error [] (RequiredProperty "title"))
       ∧ (2 ≤ length (iter_errors input_todo_schema payload))%nat).
Proof.
  split; [|split; [|split]].
  - intros e. symmetry. apply iter_errors_reports.
  - apply NoDup_iter_errors.
  - intros e Hrep%iter_errors_reports.
    assert (Hbad : iter_errors input_todo_schema payload ≠ []).
    { intros Hnil. rewrite Hnil in Hrep. by apply elem_of_nil in Hrep. }
    split; [done|].
    unfold add_todo. rewrite validate_schema_rejects by done.
    unfold invalid_input. by rewrite <- list_fmap_compose.
  - intros m -> Hu Ht.
    split; [apply reports_required; [in_list|done]|].
    split; [apply reports_required; [in_list|done]|].
    rewrite iter_errors_object, !length_app.
    unfold required_errors. rewrite Hu, Ht. cbn [length]. lia.
Qed.

(** C10: two valid payloads that differ at most in the posted id get the
    same answer from create and leave the same file, whatever the store;
    on a stored collection the id of the new Todo is the prior count plus
    one for both. *)
Theorem posted_id_is_ignored (m1 m2 : gmap string json) (fs : file) :
  valid (JObj m1) → valid (JObj m2) →
  delete "id" m1 = delete "id" m2 →
  add_todo message (Some (JObj m1)) fs = add_todo message (Some (JObj m2)) fs
  ∧ ∀ l, fs = Holds (JArr l) →
      ∃ todo, file_after (add_todo message (Some (JObj m2))) fs =
                Holds (JArr (l ++ [JObj todo]))
        ∧ todo !! "id" = Some (JInt (Z.of_nat (length l) + 1)).
Proof.
  intros Hv1 Hv2 Hsame. split.
  - unfold add_todo. rewrite !validate_schema_accepts by done.
    apply add_todo_body_reads. intros k Hk.
    rewrite <- (lookup_delete_ne m1 "id" k), <- (lookup_delete_ne m2 "id" k) by done.
    by rewrite Hsame.
  - intros l ->.
    destruct (add_todo_stores (JObj m2) l Hv2)
      as (m & u & t & [= <-] & _ & _ & _ & _ & Hrun).
    destruct (created_lookup (length l) m2 (JStr u) (JStr t))
      as (todo & Htodo & Hid & _).
    exists todo. unfold file_after. rewrite Hrun, Htodo. by cbn [snd].
Qed.

End Create.

(** ** The GET routes *)

(** C5 (amended): on every file that holds a JSON array of objects that
    each carry an id, get-by-id returns the first item whose id equals the
    requested integer, the items before it having another id, and it answers
    404 exactly when no item has that id. *)
Theorem get_todo_first_match (id : Z) (l : list json) :
  Forall has_id l →
  (∀ pre todo post,
     l = pre ++ todo :: post →
     Forall (λ t, id_is id t = false) pre →
     id_is id todo = true →
     get_todo id (Holds (JArr l)) = (Done (Response 200 todo), Holds (JArr l)))
  ∧ (result (get_todo id) (Holds (JArr l)) = Raise (HTTPException 404)
     ↔ Forall (λ t, id_is id t = false) l).
Proof.
  intros Hids. split.
  - intros pre todo post -> Hpre Hhit.
    apply Forall_app in Hids as [Hids _].
    rewrite get_todo_scans, scan_prefix by done. by apply scan_hit.
  - unfold result. rewrite get_todo_scans. by apply scan_404.
Qed.

(** C8: list and get-by-id leave the file as it was, whatever its state,
    and on a stored collection list answers 200 with the whole sequence, in
    order, under the key "todos". *)
Theorem reads_leave_the_store :
  (∀ fs, file_after list_todos fs = fs)
  ∧ (∀ id fs, file_after (get_todo id) fs = fs)
  ∧ (∀ v, list_todos (Holds v) =
            (Done (Response 200 (JObj {[ "todos" := v ]})), Holds v)).
Proof.
  split; [|split].
  - intros fs. apply list_todos_reads.
  - intros id fs. apply get_todo_reads.
  - intros v. unfold list_todos. by rewrite bind_run.
Qed.

(** ** The properties on concrete requests *)

Lemma add_todo_appends_witness :
  valid buy_milk
  ∧ ∃ todo new,
      add_todo brief (Some buy_milk) (Holds (JArr [first_todo])) =
        (Done (Response 200 (JObj {[ "msg" := JStr "todo saved" ]})),
         Holds (JArr ([first_todo] ++ [todo])))
      ∧ todo = JObj new
      ∧ new !! "id" = Some (JInt (Z.of_nat (length [first_todo]) + 1))
      ∧ length ([first_todo] ++ [todo]) = S (length [first_todo])
      ∧ (∀ i old, [first_todo] !! i = Some old →
           ([first_todo] ++ [todo]) !! i = Some old)
      ∧ ([first_todo] ++ [todo]) !! length [first_todo] = Some todo.
Proof.
  split; [vm_compute; reflexivity|].
  apply (add_todo_appends brief buy_milk [first_todo]). vm_compute; reflexivity.
Defined.

Lemma add_todo_rejects_witness :
  reports no_user (Error [] (RequiredProperty "userId"))
  ∧ ∃ errors, errors ≠ []
      ∧ add_todo brief (Some no_user) (Holds (JArr [first_todo])) =
          (Done (Response 406
                   (JObj {[ "success" := JBool false;
                            "message" := JStr "invalid input";
                            "errors" := JArr (JStr <$> errors) ]})),
           Holds (JArr [first_todo])).
Proof.
  assert (Hrep : reports no_user (Error [] (RequiredProperty "userId"))).
  { apply reports_required; [in_list | vm_compute; reflexivity]. }
  split; [exact Hrep|].
  exact (add_todo_rejects brief no_user _ (Holds (JArr [first_todo])) Hrep).
Defined.

Lemma created_todo_is_retrievable_witness :
  valid milk_done
  ∧ Forall has_id [first_todo]
  ∧ Forall (λ t, id_is (Z.of_nat (length [first_todo]) + 1) t = false) [first_todo]
  ∧ ∃ m todo,
      milk_done = JObj m
      ∧ get_todo (Z.of_nat (length [first_todo]) + 1)
          (file_after (add_todo brief (Some milk_done)) (Holds (JArr [first_todo]))) =
          (Done (Response 200 (JObj todo)),
           Holds (JArr ([first_todo] ++ [JObj todo])))
      ∧ todo !! "id" = Some (JInt (Z.of_nat (length [first_todo]) + 1))
      ∧ todo !! "userId" = m !! "userId"
      ∧ todo !! "title" = m !! "title"
      ∧ todo !! "completed" = Some (default (JBool false) (m !! "completed")).
Proof.
  assert (Hvalid : valid milk_done) by (vm_compute; reflexivity).
  assert (Hids : Forall has_id [first_todo]).
  { constructor; [|constructor]. eexists _, (JInt 1). split; [reflexivity|].
    vm_compute; reflexivity. }
  assert (Hfresh : Forall (λ t, id_is (Z.of_nat (length [first_todo]) + 1) t = false)
                     [first_todo]).
  { constructor; [vm_compute; reflexivity | constructor]. }
  split; [exact Hvalid|]. split; [exact Hids|]. split; [exact Hfresh|].
  exact (created_todo_is_retrievable brief milk_done [first_todo] Hvalid Hids Hfresh).
Defined.

Lemma persisted_strings_are_bounded_witness :
  valid buy_milk
  ∧ ∃ todo u t,
      file_after (add_todo brief (Some buy_milk)) (Holds (JArr [])) =
        Holds (JArr ([] ++ [JObj todo]))
      ∧ todo !! "userId" = Some (JStr u) ∧ (String.length u ≤ 255)%nat
      ∧ todo !! "title" = Some (JStr t) ∧ (String.length t ≤ 255)%nat.
Proof.
  split; [vm_compute; reflexivity|].
  apply (persisted_strings_are_bounded brief buy_milk []). vm_compute; reflexivity.
Defined.

Lemma get_todo_first_match_witness :
  Forall has_id [first_todo; second_by_id]
  ∧ (∀ pre todo post,
       [first_todo; second_by_id] = pre ++ todo :: post →
       Forall (λ t, id_is 2 t = false) pre →
       id_is 2 todo = true →
       get_todo 2 (Holds (JArr [first_todo; second_by_id])) =
         (Done (Response 200 todo), Holds (JArr [first_todo; second_by_id])))
  ∧ (result (get_todo 2) (Holds (JArr [first_todo; second_by_id])) =
       Raise (HTTPException 404)
     ↔ Forall (λ t, id_is 2 t = false) [first_todo; second_by_id]).
Proof.
  assert (Hids : Forall has_id [first_todo; second_by_id]).
  { repeat constructor.
    - eexists _, (JInt 1). split; [reflexivity | vm_compute; reflexivity].
    - eexists _, (JInt 2). split; [reflexivity | vm_compute; reflexivity]. }
  split; [exact Hids|].
  exact (get_todo_first_match 2 [first_todo; second_by_id] Hids).
Defined.

Lemma completed_defaults_to_false_witness :
  valid (JObj {[ "userId" := JStr "u1"; "title" := JStr "buy milk" ]})
  ∧ ∃ todo,
      file_after
        (add_todo brief
           (Some (JObj {[ "userId" := JStr "u1"; "title" := JStr "buy milk" ]})))
        (Holds (JArr [])) =
        Holds (JArr ([] ++ [JObj todo]))
      ∧ (({[ "userId" := JStr "u1"; "title" := JStr "buy milk" ]}
            : gmap string json) !! "completed" = None →
         todo !! "completed" = Some (JBool false))
      ∧ (∀ c, ({[ "userId" := JStr "u1"; "title" := JStr "buy milk" ]}
                 : gmap string json) !! "completed" = Some c →
           (∃ b, c = JBool b) ∧ todo !! "completed" = Some c).
Proof.
  split; [vm_compute; reflexivity|].
  apply (completed_defaults_to_false brief
           {[ "userId" := JStr "u1"; "title" := JStr "buy milk" ]} []).
  vm_compute; reflexivity.
Defined.

Lemma load_failures_witness :
  result get_todos NotJSON = Raise DecodeError
  ∧ list_todos NotJSON = (Raise DecodeError, NotJSON)
  ∧ get_todo 1 NotJSON = (Raise DecodeError, NotJSON)
  ∧ save_todo first_todo NotJSON = (Raise DecodeError, NotJSON)
  ∧ file_after (add_todo brief (Some buy_milk)) NotJSON = NotJSON
  ∧ (∀ payload, Some buy_milk = Some payload → valid payload →
       add_todo brief (Some buy_milk) NotJSON = (Raise DecodeError, NotJSON)).
Proof.
  split; [reflexivity|].
  apply (proj2 (proj2 (load_failures brief (Some buy_milk) 1 first_todo
                         NotJSON DecodeError))).
  reflexivity.
Defined.

Lemma every_violation_is_reported_witness :
  reports empty_object (Error [] (RequiredProperty "userId"))
  ∧ iter_errors input_todo_schema empty_object ≠ []
  ∧ add_todo brief (Some empty_object) (Holds (JArr [first_todo])) =
      (Done (Response 406
               (JObj {[ "success" := JBool false;
                        "message" := JStr "invalid input";
                        "errors" :=
                          JArr ((λ e, JStr (brief (what e)))
                                  <$> iter_errors input_todo_schema empty_object) ]})),
       Holds (JArr [first_todo])).
Proof.
  assert (Hrep : reports empty_object (Error [] (RequiredProperty "userId"))).
  { apply reports_required; [in_list | vm_compute; reflexivity]. }
  split; [exact Hrep|].
  exact (proj1 (proj2 (proj2 (every_violation_is_reported brief empty_object
                                (Holds (JArr [first_todo])))))
           _ Hrep).
Defined.

Lemma posted_id_is_ignored_witness :
  valid buy_milk
  ∧ valid milk_with_id
  ∧ delete "id" ({[ "userId" := JStr "u1"; "title" := JStr "buy milk" ]}
                   : gmap string json) =
    delete "id" ({[ "id" := JStr "7"; "userId" := JStr "u1";
                    "title" := JStr "buy milk" ]} : gmap string json)
  ∧ add_todo brief (Some buy_milk) (Holds (JArr [first_todo])) =
    add_todo brief (Some milk_with_id) (Holds (JArr [first_todo]))
  ∧ ∀ l, Holds (JArr [first_todo]) = Holds (JArr l) →
      ∃ todo, file_after (add_todo brief (Some milk_with_id))
                (Holds (JArr [first_todo])) =
                Holds (JArr (l ++ [JObj todo]))
        ∧ todo !! "id" = Some (JInt (Z.of_nat (length l) + 1)).
Proof.
  assert (H1 : valid buy_milk) by (vm_compute; reflexivity).
  assert (H2 : valid milk_with_id) by (vm_compute; reflexivity).
  assert (Hsame : delete "id" ({[ "userId" := JStr "u1"; "title" := JStr "buy milk" ]}
                                 : gmap string json) =
                  delete "id" ({[ "id" := JStr "7"; "userId" := JStr "u1";
                                  "title" := JStr "buy milk" ]} : gmap string json))
    by (vm_compute; reflexivity).
  split; [exact H1|]. split; [exact H2|]. split; [exact Hsame|].
  exact (posted_id_is_ignored brief _ _ (Holds (JArr [first_todo])) H1 H2 Hsame).
Defined.

(** C1, as stated, fails: a file that holds a JSON object loads, its length
    is taken, the file is opened for writing, and [append] then fails; the
    file is left empty and nothing was appended. *)
Lemma create_on_an_object_truncates :
  valid buy_milk
  ∧ get_todos (Holds empty_object) = (Done empty_object, Holds empty_object)
  ∧ add_todo brief (Some buy_milk) (Holds empty_object) =
      (Raise AttributeError, NotJSON).
Proof. repeat split; vm_compute; reflexivity. Qed.

(** C5, as stated, fails: a stored item without an id stops the scan with a
    [KeyError], so that no 404 is given although no item has the requested
    id, and an item behind it that has the id is not returned. *)
Lemma item_without_id_stops_the_scan :
  Forall (λ t, id_is 1 t = false) [no_id_item]
  ∧ get_todos (Holds (JArr [no_id_item])) =
      (Done (JArr [no_id_item]), Holds (JArr [no_id_item]))
  ∧ result (get_todo 1) (Holds (JArr [no_id_item])) = Raise KeyError
  ∧ id_is 1 first_todo = true
  ∧ result (get_todo 1) (Holds (JArr [no_id_item; first_todo])) = Raise KeyError.
Proof.
  split; [|repeat split; vm_compute; reflexivity].
  constructor; [vm_compute; reflexivity | constructor].
Qed.

(** C3, as stated, fails: a stored item that already has the id the new
    Todo gets comes first in the scan.  With one item of id 2 stored, the
    created Todo is second, gets id 2, and get-by-id 2 returns the old item. *)
Lemma duplicate_id_shadows_created :
  valid buy_milk
  ∧ file_after (add_todo brief (Some buy_milk)) (Holds (JArr [second_by_id])) =
      Holds (JArr [second_by_id;
                   new_todo 2 (JStr "u1") (JStr "buy milk") (JBool false)])
  ∧ result (get_todo 2)
      (Holds (JArr [second_by_id;
                    new_todo 2 (JStr "u1") (JStr "buy milk") (JBool false)])) =
      Done (Response 200 second_by_id)
  ∧ py_getitem second_by_id "userId" Absent = (Done (JStr "x"), Absent).
Proof. repeat split; vm_compute; reflexivity. Qed.

(** C4, as stated, fails: a payload whose userId and title are the empty
    string passes validation and is stored. *)
Lemma empty_strings_are_stored :
  valid blank
  ∧ add_todo brief (Some blank) (Holds (JArr [])) =
      (Done (Response 200 (JObj {[ "msg" := JStr "todo saved" ]})),
       Holds (JArr [new_todo 1 (JStr "") (JStr "") (JBool false)])).
Proof. split; vm_compute; reflexivity. Qed.

(** C7, as stated, fails: content that is JSON but not an array of Todo
    objects is loaded without any error. *)
Lemma load_accepts_other_shapes :
  ¬ todo_array empty_object
  ∧ get_todos (Holds empty_object) = (Done empty_object, Holds empty_object).
Proof.
  split; [|reflexivity]. by intros (l & Hl & _).
Qed.

(** ** The scenarios of the service *)

Example scenario_create_then_get :
  add_todo brief (Some buy_milk) (Holds (JArr [])) =
    (Done (Response 200 (JObj {[ "msg" := JStr "todo saved" ]})),
     Holds (JArr [first_todo]))
  ∧ get_todo 1 (Holds (JArr [first_todo])) =
      (Done (Response 200 first_todo), Holds (JArr [first_todo])).
Proof. split; vm_compute; reflexivity. Qed.

Example scenario_missing_user :
  add_todo brief (Some no_user) (Holds (JArr [first_todo])) =
    (Done (invalid_input ["userId is a required property"]),
     Holds (JArr [first_todo])).
Proof. vm_compute; reflexivity. Qed.

Example scenario_unknown_id :
  get_todo 999 (Holds (JArr [first_todo])) =
    (Raise (HTTPException 404), Holds (JArr [first_todo])).
Proof. vm_compute; reflexivity. Qed.

(** * Further properties of the service *)

(** ** What the schema accepts *)

Lemma accepted_reports_nothing (payload : json) (e : ValidationError) :
  accepted payload → ¬ reports payload e.
Proof.
  intros (m & -> & (u & Hu & Hulen) & (t & Ht & Htlen) & Hbool & Hid & Hknown) Hrep.
  assert (Hstr : ∀ k v, k ∈ string_fields → m !! k = Some v →
                        ∃ s, v = JStr s ∧ (String.length s ≤ 255)%nat).
  { intros k v Hk Hv. unfold string_fields in Hk. rewrite !elem_of_cons in Hk.
    destruct Hk as [->|[->|[->|?%elem_of_nil]]]; [| | |done].
    - by apply Hid.
    - rewrite Hu in Hv. injection Hv as <-. by exists u.
    - rewrite Ht in Hv. injection Hv as <-. by exists t. }
  inversion Hrep as [v Hv|m' k v Hk Hv Hs|m' k s Hk Hv Hlen|m' v Hv Hb
                    |m' k Hk Hnew|m' k Hk Hnone]; simplify_eq.
  - by destruct (Hv m).
  - destruct (Hstr k v Hk Hv) as (s & -> & _). by destruct (Hs s).
  - destruct (Hstr k (JStr s) Hk Hv) as (s' & [= <-] & ?). lia.
  - destruct (Hbool v Hv) as [b ->]. by destruct (Hb b).
  - by apply Hnew, Hknown.
  - unfold required_fields in Hk. rewrite !elem_of_cons in Hk.
    destruct Hk as [->|[->|?%elem_of_nil]]; [congruence|congruence|done].
Qed.

(** X1: the payloads that pass validation are exactly the objects with a
    userId and a title that are strings of at most 255 characters, with a
    boolean completed if any, a string id of at most 255 characters if any,
    and no other field. *)
Theorem valid_iff_accepted (payload : json) : valid payload ↔ accepted payload.
Proof.
  split.
  - intros Hvalid.
    destruct (valid_payload payload Hvalid)
      as (m & u & t & -> & Hu & Hulen & Ht & Htlen & Hbool & Hid & Hknown).
    exists m. split; [done|]. split; [by exists u|]. split; [by exists t|]. done.
  - intros Hacc. unfold valid.
    destruct (iter_errors input_todo_schema payload) as [|e errors] eqn:Herr; [done|].
    destruct (accepted_reports_nothing payload e Hacc).
    apply iter_errors_reports. rewrite Herr. by left.
Qed.

Lemma length_at_property (m : gmap string json) (p : string) :
  (length (at_property m p string_errors) ≤ 1)%nat
  ∧ (length (at_property m p boolean_errors) ≤ 1)%nat
  ∧ (length (at_property m p string_errors) + length (required_errors m p) ≤ 1)%nat.
Proof.
  unfold at_property, required_errors. destruct (m !! p) as [v|]; cbn; [|lia].
  destruct v; cbn; try case_match; cbn; lia.
Qed.

(** X2: whatever is posted, the validator finds at most five violations
    (one each for id, userId, title and completed, and one for all fields
    the schema does not know together), five are reached, and a payload that
    is not an object has exactly one, whatever it contains. *)
Theorem at_most_five_errors :
  (∀ payload, (length (iter_errors input_todo_schema payload) ≤ 5)%nat)
  ∧ (∃ payload, length (iter_errors input_todo_schema payload) = 5%nat)
  ∧ (∀ payload, (∀ m, payload ≠ JObj m) →
       iter_errors input_todo_schema payload =
         [Error [] (NotOfType payload TObject)]).
Proof.
  split; [|split; [|apply iter_errors_not_object]].
  - intros payload. destruct payload as [| | | | | |m];
      try (rewrite iter_errors_not_object by done; cbn; lia).
    rewrite iter_errors_object, !length_app.
    pose proof (length_at_property m "id") as (Hid & _ & _).
    pose proof (length_at_property m "userId") as (_ & _ & Huser).
    pose proof (length_at_property m "title") as (_ & _ & Htitle).
    pose proof (length_at_property m "completed") as (_ & Hcompleted & _).
    assert (length (unexpected_errors m) ≤ 1)%nat.
    { unfold unexpected_errors. case_bool_decide; cbn; lia. }
    lia.
  - exists (JObj {[ "id" := JInt 1; "userId" := JNull; "completed" := JStr "yes";
                    "due" := JStr "today" ]}).
    vm_compute; reflexivity.
Qed.

(** ** The store under [save_todo] *)

Lemma app_singleton_neq {A} (l : list A) (x : A) : l ++ [x] ≠ l.
Proof.
  intros Heq. apply (f_equal length) in Heq. rewrite length_app in Heq.
  cbn in Heq. lia.
Qed.

(** X3: [save_todo] stores any value it is given, unchecked, at the end of
    a stored list; it leaves the file as it was exactly when the load fails;
    and on a file that holds JSON other than a list it fails after the file
    was opened for writing, which leaves the file empty. *)
Theorem save_todo_contract (todo : json) (fs : file) :
  (∀ l, fs = Holds (JArr l) →
     save_todo todo fs = (Done (), Holds (JArr (l ++ [todo]))))
  ∧ (file_after (save_todo todo) fs = fs ↔ fs = Absent ∨ fs = NotJSON)
  ∧ (∀ v, fs = Holds v → (∀ l, v ≠ JArr l) →
       save_todo todo fs = (Raise AttributeError, NotJSON)).
Proof.
  split; [|split].
  - by intros l ->.
  - unfold file_after. destruct fs as [| |v]; [by split; auto..|].
    split; [|by intros [?|?]].
    destruct v; cbn; try done. intros [= Heq]. by apply app_singleton_neq in Heq.
  - intros v -> Hv. destruct v; try done. by destruct (Hv l).
Qed.

(** ** What [get_todo] can return *)

Lemma scan_done (id : Z) (items : list json) (fs : file) (r : response) :
  fst (scan id items fs) = Done r →
  ∃ todo, todo ∈ items ∧ id_is id todo = true ∧ r = Response 200 todo.
Proof.
  induction items as [|t items IH]; [done|].
  cbn [scan]. rewrite bind_run.
  destruct t as [| | | | | |m]; try done. cbn [py_getitem].
  destruct (m !! "id") as [v|] eqn:Hv; [|done]. rewrite ret_run.
  destruct (py_eq_int v id) eqn:Heq.
  - rewrite ret_run. intros [= <-]. exists (JObj m). split; [by left|].
    split; [|done]. cbn [id_is]. by rewrite Hv.
  - intros (todo & Hin & Hid & ->)%IH. exists todo. split; [by right|done].
Qed.

Lemma scan_strings (id : Z) (ss : list string) (fs : file) (r : response) :
  fst (scan id (JStr <$> ss) fs) ≠ Done r.
Proof. intros (todo & (s & -> & _)%list_elem_of_fmap & Hid & _)%scan_done. done. Qed.

Lemma chars_strings (s : string) : ∃ ss, chars s = JStr <$> ss.
Proof.
  induction s as [|c s [ss IH]]; [by exists []|].
  exists (String c EmptyString :: ss). cbn. by rewrite IH.
Qed.

(** X4: whatever the file holds, an answer of [get_todo] other than an
    exception has status 200 and carries an item of the stored list whose id
    equals the requested one; the file then holds a list. *)
Theorem get_todo_returns_stored (id : Z) (fs : file) (r : response) :
  result (get_todo id) fs = Done r →
  ∃ l todo, fs = Holds (JArr l) ∧ todo ∈ l ∧ id_is id todo = true
    ∧ r = Response 200 todo.
Proof.
  unfold result, get_todo. rewrite bind_run.
  destruct fs as [| |v]; try done. cbn [get_todos]. rewrite bind_run.
  destruct v as [| | | |s|l|m]; try done; cbn [py_iter]; rewrite ret_run.
  - destruct (chars_strings s) as [ss ->]. intros Hdone. by apply scan_strings in Hdone.
  - intros (todo & Hin & Hid & ->)%scan_done. by exists l, todo.
  - intros Hdone. by apply scan_strings in Hdone.
Qed.

(** ** Collections that creates alone have written *)

Lemma id_is_new_todo (z id : Z) (userId title completed : json) :
  id_is z (new_todo id userId title completed) = (id =? z).
Proof. unfold id_is, new_todo. by rewrite lookup_insert_eq. Qed.

Lemma stored_at_id (z : Z) (i : nat) (todo : json) :
  stored_at i todo → has_id todo ∧ id_is z todo = (Z.of_nat i + 1 =? z).
Proof.
  intros (u & t & c & -> & _). split; [|apply id_is_new_todo].
  eexists _, _. split; [reflexivity|]. apply lookup_insert_eq.
Qed.

Lemma ledger_has_id (l : list json) : ledger l → Forall has_id l.
Proof.
  intros Hl. apply Forall_lookup_2. intros i todo Hi.
  by apply (stored_at_id 0 i), Hl.
Qed.

Lemma ledger_other_ids (l : list json) (z : Z) :
  ledger l → (∀ i, (i < length l)%nat → Z.of_nat i + 1 ≠ z) →
  Forall (λ t, id_is z t = false) l.
Proof.
  intros Hl Hz. apply Forall_lookup_2. intros i todo Hi.
  destruct (stored_at_id z i todo (Hl i todo Hi)) as [_ ->].
  apply Z.eqb_neq, Hz. by eapply lookup_lt_Some.
Qed.

Lemma ledger_take (l : list json) (n : nat) : ledger l → ledger (take n l).
Proof.
  intros Hl i todo Hi. apply lookup_take_Some in Hi as [Hi _]. by apply Hl.
Qed.

Lemma ledger_get (l : list json) (i : nat) (todo : json) :
  ledger l → l !! i = Some todo →
  get_todo (Z.of_nat i + 1) (Holds (JArr l)) =
    (Done (Response 200 todo), Holds (JArr l)).
Proof.
  intros Hl Hi. rewrite get_todo_scans.
  rewrite <- (take_drop_middle l i todo Hi) at 1.
  rewrite scan_prefix.
  - apply scan_hit. destruct (stored_at_id (Z.of_nat i + 1) i todo (Hl i todo Hi))
      as [_ ->]. apply Z.eqb_refl.
  - by apply ledger_has_id, ledger_take.
  - apply ledger_other_ids; [by apply ledger_take|].
    intros j Hj. rewrite length_take in Hj. lia.
Qed.

Lemma ledger_404 (l : list json) (id : Z) :
  ledger l → id < 1 ∨ Z.of_nat (length l) < id →
  get_todo id (Holds (JArr l)) = (Raise (HTTPException 404), Holds (JArr l)).
Proof.
  intros Hl Hid. rewrite get_todo_scans.
  rewrite (surjective_pairing (scan id l _)), scan_reads. f_equal.
  apply scan_404; [by apply ledger_has_id|].
  apply ledger_other_ids; [done|]. intros i Hi. lia.
Qed.

(** X5: in a collection written by creates alone, the ids are the
    positions: get-by-id of [i + 1] returns the item at position [i], and
    an id below 1 or above the length is answered with 404. *)
Theorem ledger_lookup_by_id (l : list json) :
  ledger l →
  (∀ i todo, l !! i = Some todo →
     get_todo (Z.of_nat i + 1) (Holds (JArr l)) =
       (Done (Response 200 todo), Holds (JArr l)))
  ∧ (∀ id, id < 1 ∨ Z.of_nat (length l) < id →
       get_todo id (Holds (JArr l)) =
         (Raise (HTTPException 404), Holds (JArr l))).
Proof.
  intros Hl. split.
  - intros i todo Hi. by apply ledger_get.
  - intros id Hid. by apply ledger_404.
Qed.

Section Sessions.

Variable message : violation → string.

(** ** [add_todo] on files that hold no list *)

Lemma add_todo_body_no_list (m : gmap string json) (userId title : json) (v : json) :
  m !! "userId" = Some userId → m !! "title" = Some title →
  (∀ l, v ≠ JArr l) →
  add_todo_body (Some (JObj m)) (Holds v) =
    if is_scalar v then (Raise TypeError, Holds v)
    else (Raise AttributeError, NotJSON).
Proof.
  intros Hu Ht Hv. unfold add_todo_body, save_todo.
  destruct v as [| | | |s|l|m']; cbn [is_scalar];
    [by run..| |by destruct (Hv l)|].
  all: run; cbn [py_getitem py_in]; rewrite Hu, Ht; run;
    case_bool_decide as Hc;
    [destruct Hc as [c Hc]; rewrite Hc; by run | by run].
Qed.

(** X6: a valid create on a file that holds a JSON object or string takes
    its length, opens the file for writing and fails in [append], which
    leaves the file empty; on a file that holds [null], a boolean or a
    number it fails in [len] and the file is untouched. *)
Theorem add_todo_without_a_list (payload v : json) :
  valid payload → (∀ l, v ≠ JArr l) →
  add_todo message (Some payload) (Holds v) =
    if is_scalar v then (Raise TypeError, Holds v)
    else (Raise AttributeError, NotJSON).
Proof.
  intros Hvalid Hv.
  destruct (valid_payload _ Hvalid) as (m & u & t & -> & Hu & _ & Ht & _).
  unfold add_todo. rewrite validate_schema_accepts by done.
  by eapply add_todo_body_no_list.
Qed.

Lemma created_stored_at (l : list json) (m : gmap string json) (u t : string) :
  valid (JObj m) →
  m !! "userId" = Some (JStr u) → m !! "title" = Some (JStr t) →
  stored_at (length l) (created (length l) m (JStr u) (JStr t)).
Proof.
  intros Hvalid Hu Ht.
  destruct (valid_payload _ Hvalid)
    as (m' & u' & t' & [= <-] & Hu' & Hulen & Ht' & Htlen & Hbool & _).
  assert (u' = u) as -> by congruence. assert (t' = t) as -> by congruence.
  unfold created. destruct (m !! "completed") as [c|] eqn:Hc.
  - destruct (Hbool c eq_refl) as [b ->]. by exists u, t, b.
  - by exists u, t, false.
Qed.

(** X7: [add_todo] answers with a response of status 200 only when it has
    stored: the file held a list before and holds it afterwards with one
    more item at the end, numbered by its position, with a userId and a
    title of at most 255 characters and a boolean completed. *)
Theorem saved_means_stored (request : option json) (fs : file) (r : response) :
  result (add_todo message request) fs = Done r → status_code r = 200%nat →
  ∃ l todo, fs = Holds (JArr l)
    ∧ file_after (add_todo message request) fs = Holds (JArr (l ++ [todo]))
    ∧ stored_at (length l) todo.
Proof.
  unfold result, file_after. destruct request as [payload|]; [|done].
  destruct (iter_errors input_todo_schema payload) as [|e errors] eqn:Herr.
  - destruct (valid_payload _ Herr) as (m & u & t & -> & Hu & _ & Ht & _).
    destruct fs as [| |v].
    + unfold add_todo. by rewrite validate_schema_accepts.
    + unfold add_todo. by rewrite validate_schema_accepts.
    + assert (Hv : (∃ l, v = JArr l) ∨ (∀ l, v ≠ JArr l)).
      { destruct v; try (by right). left. by eexists. }
      destruct Hv as [[l ->]|Hv].
      * intros _ _. exists l, (created (length l) m (JStr u) (JStr t)).
        split; [done|]. split; [|by apply created_stored_at].
        unfold add_todo. rewrite validate_schema_accepts by done.
        by erewrite add_todo_body_stores.
      * unfold add_todo. rewrite validate_schema_accepts by done.
        erewrite add_todo_body_no_list by done.
        by destruct (is_scalar v).
  - unfold add_todo. rewrite validate_schema_rejects by (by rewrite Herr).
    cbn. by intros [= <-].
Qed.

(** ** The decorator *)

(** X8: for every schema and every handler, the decorated handler runs the
    handler only on a body that decodes and has no error, and is then the
    handler; on any other request the handler is not run, the file is left
    as it was, and the answer is 400 for an undecodable body and 406 with a
    non-empty list of messages otherwise. *)
Theorem handler_is_guarded (schema : list keyword)
    (fn : option json → io response) (request : option json) (fs : file) :
  (∀ payload, request = Some payload → iter_errors schema payload = [] →
     validate_schema message schema fn request fs = fn request fs)
  ∧ (request = None →
       validate_schema message schema fn request fs =
         (Raise (HTTPException 400), fs))
  ∧ (∀ payload, request = Some payload → iter_errors schema payload ≠ [] →
       ∃ errors, errors ≠ []
         ∧ length errors = length (iter_errors schema payload)
         ∧ validate_schema message schema fn request fs =
             (Done (invalid_input errors), fs)).
Proof.
  split; [|split].
  - intros payload -> Hok. by apply validate_schema_accepts.
  - by intros ->.
  - intros payload -> Hbad.
    exists ((λ error, message (what error)) <$> iter_errors schema payload).
    split; [by intros ?%fmap_nil_inv|]. split; [by rewrite length_fmap|].
    by apply validate_schema_rejects.
Qed.

(** ** Sessions *)

Lemma ledger_snoc (l : list json) (todo : json) :
  ledger l → stored_at (length l) todo → ledger (l ++ [todo]).
Proof.
  intros Hl Htodo i x Hi. apply lookup_app_Some in Hi as [Hi|[Hlen Hi]].
  - by apply Hl.
  - apply list_lookup_singleton_Some in Hi as [Hi <-].
    by replace i with (length l) by lia.
Qed.

Lemma dispatch_ledger (c : call) (l : list json) :
  ledger l →
  ∃ l', file_after (dispatch message c) (Holds (JArr l)) = Holds (JArr (l ++ l'))
    ∧ ledger (l ++ l')
    ∧ length l' = (if accepts c then 1 else 0)%nat.
Proof.
  intros Hl. unfold file_after. destruct c as [|id|[payload|]]; cbn [dispatch accepts].
  - exists []. by rewrite list_todos_reads, app_nil_r.
  - exists []. by rewrite get_todo_reads, app_nil_r.
  - destruct (iter_errors input_todo_schema payload) as [|e errors] eqn:Herr.
    + destruct (add_todo_stores message payload l Herr)
        as (m & u & t & -> & Hu & _ & Ht & _ & Hrun).
      exists [created (length l) m (JStr u) (JStr t)]. rewrite Hrun.
      split; [done|]. split; [|done].
      apply ledger_snoc; [done|]. by apply created_stored_at.
    + exists []. unfold add_todo.
      rewrite validate_schema_rejects by (by rewrite Herr).
      by rewrite app_nil_r.
  - exists []. by rewrite app_nil_r.
Qed.

Lemma serve_ledger (cs : list call) (l : list json) :
  ledger l →
  ∃ l', serve message cs (Holds (JArr l)) = Holds (JArr (l ++ l'))
    ∧ ledger (l ++ l')
    ∧ length l' = length (filter (λ c, accepts c = true) cs).
Proof.
  revert l. induction cs as [|c cs IH]; intros l Hl.
  - exists []. by rewrite app_nil_r.
  - destruct (dispatch_ledger c l Hl) as (l1 & Hstep & Hl1 & Hlen1).
    destruct (IH (l ++ l1) Hl1) as (l2 & Hrest & Hl2 & Hlen2).
    exists (l1 ++ l2). cbn [serve]. rewrite Hstep, Hrest, <- app_assoc.
    split; [done|]. split; [by rewrite app_assoc|].
    rewrite length_app, Hlen1, Hlen2, filter_cons.
    destruct (accepts c); by case_decide.
Qed.

(** X9: requests handled one after the other on a collection written by
    creates alone keep it one: the file still holds a list, what was stored
    is still there in the same order, the items are numbered by their
    position, and the list has grown by the number of accepted posts. *)
Theorem session_keeps_the_ledger (cs : list call) (l : list json) :
  ledger l →
  ∃ l', serve message cs (Holds (JArr l)) = Holds (JArr (l ++ l'))
    ∧ ledger (l ++ l')
    ∧ length l' = length (filter (λ c, accepts c = true) cs).
Proof.
  revert l. induction cs as [|c cs IH]; intros l Hl.
  - exists []. by rewrite app_nil_r.
  - destruct (dispatch_ledger c l Hl) as (l1 & Hstep & Hl1 & Hlen1).
    destruct (IH (l ++ l1) Hl1) as (l2 & Hrest & Hl2 & Hlen2).
    exists (l1 ++ l2). cbn [serve]. rewrite Hstep, Hrest, <- app_assoc.
    split; [done|]. split; [by rewrite app_assoc|].
    rewrite length_app, Hlen1, Hlen2, filter_cons.
    destruct (accepts c); by case_decide.
Qed.

(** X10: what creates have stored stays retrievable under its id whatever
    requests follow: after any further requests, get-by-id of [i + 1] still
    returns the item that was at position [i], and writes nothing. *)
Theorem stored_stays_retrievable (cs : list call) (l : list json)
    (i : nat) (todo : json) :
  ledger l → l !! i = Some todo →
  get_todo (Z.of_nat i + 1) (serve message cs (Holds (JArr l))) =
    (Done (Response 200 todo), serve message cs (Holds (JArr l))).
Proof.
  intros Hl Hi. destruct (serve_ledger cs l Hl) as (l' & -> & Hl' & _).
  apply ledger_get; [done|]. by apply lookup_app_l_Some.
Qed.

End Sessions.

(** ** The further properties on concrete requests *)

Lemma ledger_first_todo : ledger [first_todo].
Proof.
  intros [|i] todo Hi; [|done]. injection Hi as <-.
  exists "u1", "buy milk", false. repeat split; cbn; lia.
Qed.

Lemma ledger_nil : ledger [].
Proof. intros i todo Hi. done. Qed.

Lemma get_todo_returns_stored_witness :
  result (get_todo 1) (Holds (JArr [first_todo])) = Done (Response 200 first_todo)
  ∧ ∃ l todo, Holds (JArr [first_todo]) = Holds (JArr l) ∧ todo ∈ l
      ∧ id_is 1 todo = true ∧ Response 200 first_todo = Response 200 todo.
Proof.
  assert (Hdone : result (get_todo 1) (Holds (JArr [first_todo])) =
                    Done (Response 200 first_todo)) by (vm_compute; reflexivity).
  split; [exact Hdone|].
  exact (get_todo_returns_stored 1 (Holds (JArr [first_todo])) _ Hdone).
Defined.

Lemma ledger_lookup_by_id_witness :
  ledger [first_todo]
  ∧ (∀ i todo, [first_todo] !! i = Some todo →
       get_todo (Z.of_nat i + 1) (Holds (JArr [first_todo])) =
         (Done (Response 200 todo), Holds (JArr [first_todo])))
  ∧ (∀ id, id < 1 ∨ Z.of_nat (length [first_todo]) < id →
       get_todo id (Holds (JArr [first_todo])) =
         (Raise (HTTPException 404), Holds (JArr [first_todo]))).
Proof.
  split; [exact ledger_first_todo|].
  exact (ledger_lookup_by_id [first_todo] ledger_first_todo).
Defined.

Lemma add_todo_without_a_list_witness :
  valid buy_milk
  ∧ (∀ l, empty_object ≠ JArr l)
  ∧ add_todo brief (Some buy_milk) (Holds empty_object) =
      (if is_scalar empty_object then (Raise TypeError, Holds empty_object)
       else (Raise AttributeError, NotJSON)).
Proof.
  assert (Hvalid : valid buy_milk) by (vm_compute; reflexivity).
  assert (Hv : ∀ l, empty_object ≠ JArr l) by (intros l; discriminate).
  split; [exact Hvalid|]. split; [exact Hv|].
  exact (add_todo_without_a_list brief buy_milk empty_object Hvalid Hv).
Defined.

Lemma saved_means_stored_witness :
  result (add_todo brief (Some buy_milk)) (Holds (JArr [])) =
    Done (Response 200 (JObj {[ "msg" := JStr "todo saved" ]}))
  ∧ ∃ l todo, Holds (JArr []) = Holds (JArr l)
      ∧ file_after (add_todo brief (Some buy_milk)) (Holds (JArr [])) =
          Holds (JArr (l ++ [todo]))
      ∧ stored_at (length l) todo.
Proof.
  assert (Hdone : result (add_todo brief (Some buy_milk)) (Holds (JArr [])) =
                    Done (Response 200 (JObj {[ "msg" := JStr "todo saved" ]})))
    by (vm_compute; reflexivity).
  split; [exact Hdone|].
  exact (saved_means_stored brief (Some buy_milk) (Holds (JArr [])) _ Hdone eq_refl).
Defined.

Lemma session_keeps_the_ledger_witness :
  ledger []
  ∧ ∃ l', serve brief session (Holds (JArr [])) = Holds (JArr ([] ++ l'))
      ∧ ledger ([] ++ l')
      ∧ length l' = length (filter (λ c, accepts c = true) session).
Proof.
  split; [exact ledger_nil|].
  exact (session_keeps_the_ledger brief session [] ledger_nil).
Defined.

Lemma stored_stays_retrievable_witness :
  ledger [first_todo]
  ∧ [first_todo] !! 0%nat = Some first_todo
  ∧ get_todo (Z.of_nat 0 + 1) (serve brief session (Holds (JArr [first_todo]))) =
      (Done (Response 200 first_todo),
       serve brief session (Holds (JArr [first_todo]))).
Proof.
  split; [exact ledger_first_todo|]. split; [reflexivity|].
  exact (stored_stays_retrievable brief session [first_todo] 0 first_todo
           ledger_first_todo eq_refl).
Defined.

(** The session on the empty collection stores the two accepted posts. *)
Example session_on_the_empty_collection :
  serve brief session (Holds (JArr [])) =
    Holds (JArr [first_todo;
                 new_todo 2 (JStr "u1") (JStr "buy milk") (JBool true)]).
Proof. vm_compute; reflexivity. Qed.
